(** * OITVOIP MCP server: a shallow embedding of the tool dispatcher
      (src/index.ts) and of the NetSapiens gateway (src/netsapiens-client.ts).

    Modelling choices:
    - runtime values are JavaScript values ([jsvalue]); a missing property
      reads as [JUndef]; numbers occurring in the code are integers ([Z]);
    - a tool's [arguments] is the parsed JSON object of the request, an
      association list read with [get] (first binding wins);
    - the asynchronous code is a small program type [prog]: a value, a thrown
      [McpError], or one HTTP call through axios whose outcome ([outcome]) is
      either a parsed response body (2xx) or a rejected promise carrying the
      error's [message] property;
    - [JSON.stringify] is modelled at the level of the JSON tree it prints
      ([json]); the indentation argument only affects whitespace. *)

From Stdlib Require Import String List ZArith Bool Ascii NArith.
Import ListNotations.
Set Warnings "-register-all".
Open Scope string_scope.

(** ** JavaScript values *)

Inductive jsvalue : Type :=
| JUndef
| JNull
| JBool (b : bool)
| JNum (z : Z)
| JStr (s : string)
| JArr (l : list jsvalue)
| JObj (kvs : list (string * jsvalue)).

(** JavaScript truthiness: [undefined], [null], [false], [0], [""] are falsy. *)
Definition truthy (v : jsvalue) : bool :=
  match v with
  | JUndef | JNull => false
  | JBool b => b
  | JNum z => negb (Z.eqb z 0)
  | JStr s => negb (String.eqb s "")
  | JArr _ | JObj _ => true
  end.

(** [a || b] *)
Definition js_or (a b : jsvalue) : jsvalue := if truthy a then a else b.

(** Destructuring default [{ x = d } = obj]: only [undefined] takes the default. *)
Definition js_default (v d : jsvalue) : jsvalue :=
  match v with JUndef => d | _ => v end.

(** [Array.isArray] *)
Definition isArray (v : jsvalue) : bool :=
  match v with JArr _ => true | _ => false end.

Fixpoint assoc {A} (k : string) (kvs : list (string * A)) : option A :=
  match kvs with
  | [] => None
  | (k', v) :: r => if String.eqb k k' then Some v else assoc k r
  end.

(** Property read [obj.k] on the arguments object. *)
Definition get (args : list (string * jsvalue)) (k : string) : jsvalue :=
  match assoc k args with Some v => v | None => JUndef end.

(** Decimal printing of integers, as [String(n)] does. *)
Fixpoint digits_of (fuel : nat) (n : N) (acc : string) : string :=
  match fuel with
  | O => acc
  | S f =>
      let acc' := String (ascii_of_N (48 + N.modulo n 10)) acc in
      let q := N.div n 10 in
      if N.eqb q 0 then acc' else digits_of f q acc'
  end.

Definition N_to_dec (n : N) : string := digits_of (S (N.size_nat n)) n "".

Definition Z_to_dec (z : Z) : string :=
  match z with
  | Z0 => "0"
  | Zpos p => N_to_dec (Npos p)
  | Zneg p => "-" ++ N_to_dec (Npos p)
  end.

(** [String(v)], used by template literals [`${v}`]. *)
Fixpoint tostr (v : jsvalue) : string :=
  match v with
  | JUndef => "undefined"
  | JNull => "null"
  | JBool true => "true"
  | JBool false => "false"
  | JNum z => Z_to_dec z
  | JStr s => s
  | JArr l =>
      (fix join (l : list jsvalue) : string :=
         let elem x := match x with JUndef | JNull => "" | _ => tostr x end in
         match l with
         | [] => ""
         | [x] => elem x
         | x :: r => elem x ++ "," ++ join r
         end) l
  | JObj _ => "[object Object]"
  end.

(** [v?.length] *)
Definition js_length (v : jsvalue) : jsvalue :=
  match v with
  | JArr l => JNum (Z.of_nat (List.length l))
  | JStr s => JNum (Z.of_nat (String.length s))
  | JObj kvs => match assoc "length" kvs with Some x => x | None => JUndef end
  | _ => JUndef
  end.

(** ** JSON.stringify *)

Inductive json : Type :=
| JsNull
| JsBool (b : bool)
| JsNum (z : Z)
| JsStr (s : string)
| JsArr (l : list json)
| JsObj (kvs : list (string * json)).

(** Object members whose value is [undefined] are dropped, array elements that
    are [undefined] print as [null], and [undefined] itself has no JSON text. *)
Fixpoint JSON_stringify (v : jsvalue) : option json :=
  match v with
  | JUndef => None
  | JNull => Some JsNull
  | JBool b => Some (JsBool b)
  | JNum z => Some (JsNum z)
  | JStr s => Some (JsStr s)
  | JArr l =>
      Some (JsArr ((fix elems (l : list jsvalue) : list json :=
                      match l with
                      | [] => []
                      | x :: r =>
                          match JSON_stringify x with
                          | Some j => j
                          | None => JsNull
                          end :: elems r
                      end) l))
  | JObj kvs =>
      Some (JsObj ((fix members (kvs : list (string * jsvalue)) :=
                      match kvs with
                      | [] => []
                      | (k, x) :: r =>
                          match JSON_stringify x with
                          | Some j => (k, j) :: members r
                          | None => members r
                          end
                      end) kvs))
  end.

(** ** Protocol errors (McpError with the SDK's ErrorCode) *)

Inductive ErrorCode : Type := MethodNotFound | InvalidParams | InternalError.

Definition error_code_value (c : ErrorCode) : Z :=
  match c with
  | MethodNotFound => -32601
  | InvalidParams => -32602
  | InternalError => -32603
  end.

Record McpError : Type := mkMcpError { err_code : ErrorCode; err_message : string }.

(** ** HTTP requests issued through the axios instance *)

Inductive http_method : Type := GET | POST.

Record request : Type := mkRequest {
  req_method : http_method;
  req_path : string;                          (* relative to {apiUrl}/ns-api/v2 *)
  req_params : list (string * jsvalue)        (* the [params] option *)
}.

Inductive outcome : Type :=
| Response (body : jsvalue)        (* 2xx: [response.data] *)
| Failure (message : jsvalue).     (* rejected: the error's [message] *)

(** ** Programs: return, throw an McpError, or await one HTTP call *)

Inductive prog (A : Type) : Type :=
| Done (a : A)
| Throw (e : McpError)
| Http (r : request) (k : outcome -> prog A).

Arguments Done {A} a.
Arguments Throw {A} e.
Arguments Http {A} r k.

Fixpoint bind {A B} (p : prog A) (f : A -> prog B) : prog B :=
  match p with
  | Done a => f a
  | Throw e => Throw e
  | Http r k => Http r (fun o => bind (k o) f)
  end.

Notation "x <- p ;; q" := (bind p (fun x => q)) (at level 61, p at next level, right associativity).

(** Running a program against a transport: the requests it issued, in order,
    and either the thrown protocol error or the returned value. *)
Fixpoint run {A} (t : request -> outcome) (p : prog A) : list request * (McpError + A) :=
  match p with
  | Done a => ([], inr a)
  | Throw e => ([], inl e)
  | Http r k => let (rs, res) := run t (k (t r)) in (r :: rs, res)
  end.

(** ** OperationResult ([NetSapiensApiResponse]) *)

Record result : Type := mkResult {
  success : bool;
  data : jsvalue;
  error : jsvalue;
  message : jsvalue
}.

(** One awaited call in a [try]/[catch]: the response goes to [ok], the
    rejection's message to [err]; nothing escapes the [catch]. *)
Definition try_get (r : request) (ok : jsvalue -> result) (err : jsvalue -> result) : prog result :=
  Http r (fun o => match o with Response b => Done (ok b) | Failure m => Done (err m) end).

Definition ok_list (b : jsvalue) : result :=
  {| success := true; data := if isArray b then b else JArr [b]; error := JUndef; message := JUndef |}.

Definition ok_entity (b : jsvalue) : result :=
  {| success := true; data := b; error := JUndef; message := JUndef |}.

Definition fail_with (fallback : string) (d : jsvalue) (m : jsvalue) : result :=
  {| success := false; error := js_or m (JStr fallback); data := d; message := JUndef |}.

(** ** The gateway: [NetSapiensClient] *)

Definition get_req (path : string) (params : list (string * jsvalue)) : request :=
  {| req_method := GET; req_path := path; req_params := params |}.

Definition post_req (path : string) : request :=
  {| req_method := POST; req_path := path; req_params := [] |}.

(** [searchUsers(query, domain?, limit = 20)] *)
Definition searchUsers (query domain limit : jsvalue) : prog result :=
  let limit := js_default limit (JNum 20) in
  let endpoint := if truthy domain then "/domains/" ++ tostr domain ++ "/users"
                  else "/domains/~/users/~" in
  try_get (get_req endpoint [("user", query); ("limit", limit)])
    ok_list (fail_with "Failed to search users" (JArr [])).

(** [getUser(userId, domain)] *)
Definition getUser (userId domain : jsvalue) : prog result :=
  try_get (get_req ("/domains/" ++ tostr domain ++ "/users/" ++ tostr userId) [])
    ok_entity (fail_with "Failed to get user" JUndef).

(** The [params] argument of [getCDRRecords]. *)
Record cdr_params : Type := mkCdrParams {
  startDate : jsvalue; endDate : jsvalue; user : jsvalue; cdr_domain : jsvalue; cdr_limit : jsvalue
}.

(** [getCDRRecords(params)] *)
Definition getCDRRecords (params : cdr_params) : prog result :=
  let endpoint :=
    if truthy (user params) && truthy (cdr_domain params) then
      "/domains/" ++ tostr (cdr_domain params) ++ "/users/" ++ tostr (user params) ++ "/cdrs"
    else if truthy (cdr_domain params) then
      "/domains/" ++ tostr (cdr_domain params) ++ "/cdrs"
    else "/cdrs" in
  try_get (get_req endpoint [("start_time", startDate params);
                             ("end_time", endDate params);
                             ("limit", js_or (cdr_limit params) (JNum 100))])
    ok_list (fail_with "Failed to get CDR records" (JArr [])).

(** [getDomains()] *)
Definition getDomains : prog result :=
  try_get (get_req "/domains" []) ok_list (fail_with "Failed to get domains" (JArr [])).

(** [getDomain(domain)] *)
Definition getDomain (domain : jsvalue) : prog result :=
  try_get (get_req ("/domains/" ++ tostr domain) [])
    ok_entity (fail_with "Failed to get domain" JUndef).

(** [getUserDevices(userId, domain)] *)
Definition getUserDevices (userId domain : jsvalue) : prog result :=
  try_get (get_req ("/domains/" ++ tostr domain ++ "/users/" ++ tostr userId ++ "/devices") [])
    ok_list (fail_with "Failed to get user devices" (JArr [])).

(** [getPhoneNumbers(domain, limit?)] *)
Definition getPhoneNumbers (domain limit : jsvalue) : prog result :=
  try_get (get_req ("/domains/" ++ tostr domain ++ "/phonenumbers") [("limit", limit)])
    ok_list (fail_with "Failed to get phone numbers" (JArr [])).

(** [getPhoneNumber(domain, phoneNumber)] *)
Definition getPhoneNumber (domain phoneNumber : jsvalue) : prog result :=
  try_get (get_req ("/domains/" ++ tostr domain ++ "/phonenumbers/" ++ tostr phoneNumber) [])
    ok_entity (fail_with "Failed to get phone number" JUndef).

(** [getCallQueues(domain)] *)
Definition getCallQueues (domain : jsvalue) : prog result :=
  try_get (get_req ("/domains/" ++ tostr domain ++ "/callqueues") [])
    ok_list (fail_with "Failed to get call queues" (JArr [])).

(** [getCallQueue(domain, queueId)] *)
Definition getCallQueue (domain queueId : jsvalue) : prog result :=
  try_get (get_req ("/domains/" ++ tostr domain ++ "/callqueues/" ++ tostr queueId) [])
    ok_entity (fail_with "Failed to get call queue" JUndef).

(** [getCallQueueAgents(domain, queueId)] *)
Definition getCallQueueAgents (domain queueId : jsvalue) : prog result :=
  try_get (get_req ("/domains/" ++ tostr domain ++ "/callqueues/" ++ tostr queueId ++ "/agents") [])
    ok_list (fail_with "Failed to get call queue agents" (JArr [])).

(** [getAgents(domain)] *)
Definition getAgents (domain : jsvalue) : prog result :=
  try_get (get_req ("/domains/" ++ tostr domain ++ "/agents") [])
    ok_list (fail_with "Failed to get agents" (JArr [])).

(** [loginAgent(domain, queueId, agentId)]: a POST without body. *)
Definition loginAgent (domain queueId agentId : jsvalue) : prog result :=
  try_get (post_req ("/domains/" ++ tostr domain ++ "/callqueues/" ++ tostr queueId
                     ++ "/agents/" ++ tostr agentId ++ "/login"))
    (fun b => {| success := true; data := b; error := JUndef;
                 message := JStr "Agent logged in successfully" |})
    (fail_with "Failed to login agent" JUndef).

(** [logoutAgent(domain, queueId, agentId)]: a POST without body. *)
Definition logoutAgent (domain queueId agentId : jsvalue) : prog result :=
  try_get (post_req ("/domains/" ++ tostr domain ++ "/callqueues/" ++ tostr queueId
                     ++ "/agents/" ++ tostr agentId ++ "/logout"))
    (fun b => {| success := true; data := b; error := JUndef;
                 message := JStr "Agent logged out successfully" |})
    (fail_with "Failed to logout agent" JUndef).

(** [getAutoAttendants(domain)] *)
Definition getAutoAttendants (domain : jsvalue) : prog result :=
  try_get (get_req ("/domains/" ++ tostr domain ++ "/autoattendants") [])
    ok_list (fail_with "Failed to get auto attendants" (JArr [])).

(** [getUserAnswerRules(userId, domain)] *)
Definition getUserAnswerRules (userId domain : jsvalue) : prog result :=
  try_get (get_req ("/domains/" ++ tostr domain ++ "/users/" ++ tostr userId ++ "/answerrules") [])
    ok_list (fail_with "Failed to get answer rules" (JArr [])).

(** [getUserAnswerRule(userId, domain, timeframe)] *)
Definition getUserAnswerRule (userId domain timeframe : jsvalue) : prog result :=
  try_get (get_req ("/domains/" ++ tostr domain ++ "/users/" ++ tostr userId
                    ++ "/answerrules/" ++ tostr timeframe) [])
    ok_entity (fail_with "Failed to get answer rule" JUndef).

(** [getUserGreetings(userId, domain)] *)
Definition getUserGreetings (userId domain : jsvalue) : prog result :=
  try_get (get_req ("/domains/" ++ tostr domain ++ "/users/" ++ tostr userId ++ "/greetings") [])
    ok_list (fail_with "Failed to get user greetings" (JArr [])).

(** [getUserVoicemails(userId, domain)] *)
Definition getUserVoicemails (userId domain : jsvalue) : prog result :=
  try_get (get_req ("/domains/" ++ tostr domain ++ "/users/" ++ tostr userId ++ "/voicemail") [])
    ok_list (fail_with "Failed to get user voicemails" (JArr [])).

(** [getMusicOnHold(domain)] *)
Definition getMusicOnHold (domain : jsvalue) : prog result :=
  try_get (get_req ("/domains/" ++ tostr domain ++ "/moh") [])
    ok_list (fail_with "Failed to get music on hold" (JArr [])).

(** [getBilling(domain)] *)
Definition getBilling (domain : jsvalue) : prog result :=
  try_get (get_req ("/domains/" ++ tostr domain ++ "/billing") [])
    ok_entity (fail_with "Failed to get billing information" JUndef).

(** [getAgentStatistics(domain, agentId?)] *)
Definition getAgentStatistics (domain agentId : jsvalue) : prog result :=
  let endpoint := if truthy agentId
                  then "/domains/" ++ tostr domain ++ "/statistics/agent/" ++ tostr agentId
                  else "/domains/" ++ tostr domain ++ "/statistics/agent" in
  try_get (get_req endpoint []) ok_entity (fail_with "Failed to get agent statistics" JUndef).

(** [testConnection()] *)
Definition testConnection : prog result :=
  try_get (get_req "/domains" [("limit", JNum 1)])
    (fun _ => {| success := true; data := JBool true; error := JUndef;
                 message := JStr "Connection successful" |})
    (fail_with "Connection failed" (JBool false)).

(** The gateway's public methods, as a call with its arguments. *)
Inductive gw_call : Type :=
| CSearchUsers (query domain limit : jsvalue)
| CGetUser (userId domain : jsvalue)
| CGetCDRRecords (params : cdr_params)
| CGetDomains
| CGetDomain (domain : jsvalue)
| CGetUserDevices (userId domain : jsvalue)
| CGetPhoneNumbers (domain limit : jsvalue)
| CGetPhoneNumber (domain phoneNumber : jsvalue)
| CGetCallQueues (domain : jsvalue)
| CGetCallQueue (domain queueId : jsvalue)
| CGetCallQueueAgents (domain queueId : jsvalue)
| CGetAgents (domain : jsvalue)
| CLoginAgent (domain queueId agentId : jsvalue)
| CLogoutAgent (domain queueId agentId : jsvalue)
| CGetAutoAttendants (domain : jsvalue)
| CGetUserAnswerRules (userId domain : jsvalue)
| CGetUserAnswerRule (userId domain timeframe : jsvalue)
| CGetUserGreetings (userId domain : jsvalue)
| CGetUserVoicemails (userId domain : jsvalue)
| CGetMusicOnHold (domain : jsvalue)
| CGetBilling (domain : jsvalue)
| CGetAgentStatistics (domain agentId : jsvalue)
| CTestConnection.

Definition gateway (c : gw_call) : prog result :=
  match c with
  | CSearchUsers q d l => searchUsers q d l
  | CGetUser u d => getUser u d
  | CGetCDRRecords p => getCDRRecords p
  | CGetDomains => getDomains
  | CGetDomain d => getDomain d
  | CGetUserDevices u d => getUserDevices u d
  | CGetPhoneNumbers d l => getPhoneNumbers d l
  | CGetPhoneNumber d n => getPhoneNumber d n
  | CGetCallQueues d => getCallQueues d
  | CGetCallQueue d q => getCallQueue d q
  | CGetCallQueueAgents d q => getCallQueueAgents d q
  | CGetAgents d => getAgents d
  | CLoginAgent d q a => loginAgent d q a
  | CLogoutAgent d q a => logoutAgent d q a
  | CGetAutoAttendants d => getAutoAttendants d
  | CGetUserAnswerRules u d => getUserAnswerRules u d
  | CGetUserAnswerRule u d t => getUserAnswerRule u d t
  | CGetUserGreetings u d => getUserGreetings u d
  | CGetUserVoicemails u d => getUserVoicemails u d
  | CGetMusicOnHold d => getMusicOnHold d
  | CGetBilling d => getBilling d
  | CGetAgentStatistics d a => getAgentStatistics d a
  | CTestConnection => testConnection
  end.

(** The declared payload type of each method's [NetSapiensApiResponse<T>]:
    an array type [X[]], a single entity ([X] or [any]), or [boolean]. *)
Inductive ret_kind : Type := RList | REntity | RBool.

Definition gw_returns (c : gw_call) : ret_kind :=
  match c with
  | CSearchUsers _ _ _ | CGetCDRRecords _ | CGetDomains | CGetUserDevices _ _
  | CGetPhoneNumbers _ _ | CGetCallQueues _ | CGetCallQueueAgents _ _ | CGetAgents _
  | CGetAutoAttendants _ | CGetUserAnswerRules _ _ | CGetUserGreetings _ _
  | CGetUserVoicemails _ _ | CGetMusicOnHold _ => RList
  | CGetUser _ _ | CGetDomain _ | CGetPhoneNumber _ _ | CGetCallQueue _ _
  | CLoginAgent _ _ _ | CLogoutAgent _ _ _ | CGetUserAnswerRule _ _ _
  | CGetBilling _ | CGetAgentStatistics _ _ => REntity
  | CTestConnection => RBool
  end.

(** The empty value of each payload type. *)
Definition empty_of (k : ret_kind) : jsvalue :=
  match k with RList => JArr [] | REntity => JUndef | RBool => JBool false end.

(** ** The dispatcher: [OITVOIPMCPServer] *)

Definition arguments : Type := list (string * jsvalue).

Record block : Type := mkBlock { btype : string; btext : option json }.

(** A tool reply: its [content] sequence. *)
Definition reply : Type := list block.

(** [{ content: [{ type: 'text', text: JSON.stringify(obj, null, 2) }] }] *)
Definition reply_of (obj : list (string * jsvalue)) : reply :=
  [{| btype := "text"; btext := JSON_stringify (JObj obj) |}].

(** [{ success: result.success, message, data: result.data, error: result.error }] *)
Definition envelope (r : result) (msg : jsvalue) : list (string * jsvalue) :=
  [("success", JBool (success r)); ("message", msg); ("data", data r); ("error", error r)].

Definition invalid {A} (msg : string) : prog A := Throw (mkMcpError InvalidParams msg).

(** [`${result.data?.length || 0}`] *)
Definition count (r : result) : string := tostr (js_or (js_length (data r)) (JNum 0)).

(** A double quote character. *)
Definition dq : string := String (ascii_of_nat 34) EmptyString.

Definition fails (prefix : string) (r : result) : string := prefix ++ tostr (error r).

Definition handleSearchUsers (args : arguments) : prog reply :=
  let query := get args "query" in
  let domain := get args "domain" in
  let limit := js_default (get args "limit") (JNum 20) in
  if negb (truthy query) then invalid "Query parameter is required" else
  r <- searchUsers query domain limit ;;
  Done (reply_of (envelope r (JStr
    (if success r
     then "Found " ++ count r ++ " users matching " ++ dq ++ tostr query ++ dq
          ++ (if truthy domain then " in domain " ++ tostr domain else "")
     else fails "Search failed: " r)))).

Definition handleGetUser (args : arguments) : prog reply :=
  let userId := get args "userId" in
  let domain := get args "domain" in
  if negb (truthy userId) || negb (truthy domain)
  then invalid "userId and domain parameters are required" else
  r <- getUser userId domain ;;
  Done (reply_of (envelope r (JStr
    (if success r then "Retrieved user details for " ++ tostr userId
     else fails "Failed to get user: " r)))).

Definition handleGetCDRRecords (args : arguments) : prog reply :=
  let limit := js_default (get args "limit") (JNum 100) in
  r <- getCDRRecords {| startDate := get args "startDate"; endDate := get args "endDate";
                        user := get args "user"; cdr_domain := get args "domain";
                        cdr_limit := limit |} ;;
  Done (reply_of (envelope r (JStr
    (if success r then "Retrieved " ++ count r ++ " CDR records"
     else fails "Failed to get CDR records: " r)))).

Definition handleGetDomains (args : arguments) : prog reply :=
  r <- getDomains ;;
  Done (reply_of (envelope r (JStr
    (if success r then "Retrieved " ++ count r ++ " domains"
     else fails "Failed to get domains: " r)))).

Definition handleGetDomain (args : arguments) : prog reply :=
  let domain := get args "domain" in
  if negb (truthy domain) then invalid "domain parameter is required" else
  r <- getDomain domain ;;
  Done (reply_of (envelope r (JStr
    (if success r then "Retrieved domain information for " ++ tostr domain
     else fails "Failed to get domain: " r)))).

Definition handleGetUserDevices (args : arguments) : prog reply :=
  let userId := get args "userId" in
  let domain := get args "domain" in
  if negb (truthy userId) || negb (truthy domain)
  then invalid "userId and domain parameters are required" else
  r <- getUserDevices userId domain ;;
  Done (reply_of (envelope r (JStr
    (if success r
     then "Retrieved " ++ count r ++ " devices for user " ++ tostr userId ++ "@" ++ tostr domain
     else fails "Failed to get user devices: " r)))).

Definition handleGetPhoneNumbers (args : arguments) : prog reply :=
  let domain := get args "domain" in
  let limit := get args "limit" in
  if negb (truthy domain) then invalid "domain parameter is required" else
  r <- getPhoneNumbers domain limit ;;
  Done (reply_of (envelope r (JStr
    (if success r
     then "Retrieved " ++ count r ++ " phone numbers for domain " ++ tostr domain
     else fails "Failed to get phone numbers: " r)))).

Definition handleGetPhoneNumber (args : arguments) : prog reply :=
  let domain := get args "domain" in
  let phoneNumber := get args "phoneNumber" in
  if negb (truthy domain) || negb (truthy phoneNumber)
  then invalid "domain and phoneNumber parameters are required" else
  r <- getPhoneNumber domain phoneNumber ;;
  Done (reply_of (envelope r (JStr
    (if success r then "Retrieved phone number details for " ++ tostr phoneNumber
     else fails "Failed to get phone number: " r)))).

Definition handleGetCallQueues (args : arguments) : prog reply :=
  let domain := get args "domain" in
  if negb (truthy domain) then invalid "domain parameter is required" else
  r <- getCallQueues domain ;;
  Done (reply_of (envelope r (JStr
    (if success r
     then "Retrieved " ++ count r ++ " call queues for domain " ++ tostr domain
     else fails "Failed to get call queues: " r)))).

Definition handleGetCallQueue (args : arguments) : prog reply :=
  let domain := get args "domain" in
  let queueId := get args "queueId" in
  if negb (truthy domain) || negb (truthy queueId)
  then invalid "domain and queueId parameters are required" else
  r <- getCallQueue domain queueId ;;
  Done (reply_of (envelope r (JStr
    (if success r then "Retrieved call queue details for " ++ tostr queueId
     else fails "Failed to get call queue: " r)))).

Definition handleGetCallQueueAgents (args : arguments) : prog reply :=
  let domain := get args "domain" in
  let queueId := get args "queueId" in
  if negb (truthy domain) || negb (truthy queueId)
  then invalid "domain and queueId parameters are required" else
  r <- getCallQueueAgents domain queueId ;;
  Done (reply_of (envelope r (JStr
    (if success r
     then "Retrieved " ++ count r ++ " agents for call queue " ++ tostr queueId
     else fails "Failed to get call queue agents: " r)))).

Definition handleGetAgents (args : arguments) : prog reply :=
  let domain := get args "domain" in
  if negb (truthy domain) then invalid "domain parameter is required" else
  r <- getAgents domain ;;
  Done (reply_of (envelope r (JStr
    (if success r
     then "Retrieved " ++ count r ++ " agents for domain " ++ tostr domain
     else fails "Failed to get agents: " r)))).

Definition handleLoginAgent (args : arguments) : prog reply :=
  let domain := get args "domain" in
  let queueId := get args "queueId" in
  let agentId := get args "agentId" in
  if negb (truthy domain) || negb (truthy queueId) || negb (truthy agentId)
  then invalid "domain, queueId, and agentId parameters are required" else
  r <- loginAgent domain queueId agentId ;;
  Done (reply_of (envelope r
    (js_or (message r) (JStr (if success r then "Agent logged in successfully"
                              else "Failed to login agent"))))).

Definition handleLogoutAgent (args : arguments) : prog reply :=
  let domain := get args "domain" in
  let queueId := get args "queueId" in
  let agentId := get args "agentId" in
  if negb (truthy domain) || negb (truthy queueId) || negb (truthy agentId)
  then invalid "domain, queueId, and agentId parameters are required" else
  r <- logoutAgent domain queueId agentId ;;
  Done (reply_of (envelope r
    (js_or (message r) (JStr (if success r then "Agent logged out successfully"
                              else "Failed to logout agent"))))).

Definition handleGetAutoAttendants (args : arguments) : prog reply :=
  let domain := get args "domain" in
  if negb (truthy domain) then invalid "domain parameter is required" else
  r <- getAutoAttendants domain ;;
  Done (reply_of (envelope r (JStr
    (if success r
     then "Retrieved " ++ count r ++ " auto attendants for domain " ++ tostr domain
     else fails "Failed to get auto attendants: " r)))).

Definition handleGetUserAnswerRules (args : arguments) : prog reply :=
  let userId := get args "userId" in
  let domain := get args "domain" in
  if negb (truthy userId) || negb (truthy domain)
  then invalid "userId and domain parameters are required" else
  r <- getUserAnswerRules userId domain ;;
  Done (reply_of (envelope r (JStr
    (if success r
     then "Retrieved " ++ count r ++ " answer rules for user " ++ tostr userId ++ "@" ++ tostr domain
     else fails "Failed to get answer rules: " r)))).

Definition handleGetUserAnswerRule (args : arguments) : prog reply :=
  let userId := get args "userId" in
  let domain := get args "domain" in
  let timeframe := get args "timeframe" in
  if negb (truthy userId) || negb (truthy domain) || negb (truthy timeframe)
  then invalid "userId, domain, and timeframe parameters are required" else
  r <- getUserAnswerRule userId domain timeframe ;;
  Done (reply_of (envelope r (JStr
    (if success r
     then "Retrieved answer rule for " ++ tostr userId ++ "@" ++ tostr domain
          ++ " timeframe " ++ tostr timeframe
     else fails "Failed to get answer rule: " r)))).

Definition handleGetUserGreetings (args : arguments) : prog reply :=
  let userId := get args "userId" in
  let domain := get args "domain" in
  if negb (truthy userId) || negb (truthy domain)
  then invalid "userId and domain parameters are required" else
  r <- getUserGreetings userId domain ;;
  Done (reply_of (envelope r (JStr
    (if success r
     then "Retrieved " ++ count r ++ " greetings for user " ++ tostr userId ++ "@" ++ tostr domain
     else fails "Failed to get user greetings: " r)))).

Definition handleGetUserVoicemails (args : arguments) : prog reply :=
  let userId := get args "userId" in
  let domain := get args "domain" in
  if negb (truthy userId) || negb (truthy domain)
  then invalid "userId and domain parameters are required" else
  r <- getUserVoicemails userId domain ;;
  Done (reply_of (envelope r (JStr
    (if success r
     then "Retrieved " ++ count r ++ " voicemails for user " ++ tostr userId ++ "@" ++ tostr domain
     else fails "Failed to get user voicemails: " r)))).

Definition handleGetMusicOnHold (args : arguments) : prog reply :=
  let domain := get args "domain" in
  if negb (truthy domain) then invalid "domain parameter is required" else
  r <- getMusicOnHold domain ;;
  Done (reply_of (envelope r (JStr
    (if success r
     then "Retrieved " ++ count r ++ " music on hold files for domain " ++ tostr domain
     else fails "Failed to get music on hold: " r)))).

Definition handleGetBilling (args : arguments) : prog reply :=
  let domain := get args "domain" in
  if negb (truthy domain) then invalid "domain parameter is required" else
  r <- getBilling domain ;;
  Done (reply_of (envelope r (JStr
    (if success r then "Retrieved billing information for domain " ++ tostr domain
     else fails "Failed to get billing information: " r)))).

Definition handleGetAgentStatistics (args : arguments) : prog reply :=
  let domain := get args "domain" in
  let agentId := get args "agentId" in
  if negb (truthy domain) then invalid "domain parameter is required" else
  r <- getAgentStatistics domain agentId ;;
  Done (reply_of (envelope r (JStr
    (if success r
     then "Retrieved agent statistics for domain " ++ tostr domain
          ++ (if truthy agentId then " (agent: " ++ tostr agentId ++ ")" else "")
     else fails "Failed to get agent statistics: " r)))).

(** The reply of [test_connection] lists [success], [message] and [error] only. *)
Definition handleTestConnection (args : arguments) : prog reply :=
  r <- testConnection ;;
  Done (reply_of
    [("success", JBool (success r));
     ("message", js_or (message r) (JStr (if success r then "Connection successful"
                                          else "Connection failed")));
     ("error", error r)]).

(** The [switch (name)] of the [CallToolRequestSchema] handler. *)
Definition tool_handlers : list (string * (arguments -> prog reply)) :=
  [("search_users", handleSearchUsers);
   ("get_user", handleGetUser);
   ("get_cdr_records", handleGetCDRRecords);
   ("get_domains", handleGetDomains);
   ("get_domain", handleGetDomain);
   ("get_user_devices", handleGetUserDevices);
   ("get_phone_numbers", handleGetPhoneNumbers);
   ("get_phone_number", handleGetPhoneNumber);
   ("get_call_queues", handleGetCallQueues);
   ("get_call_queue", handleGetCallQueue);
   ("get_call_queue_agents", handleGetCallQueueAgents);
   ("get_agents", handleGetAgents);
   ("login_agent", handleLoginAgent);
   ("logout_agent", handleLogoutAgent);
   ("get_auto_attendants", handleGetAutoAttendants);
   ("get_user_answer_rules", handleGetUserAnswerRules);
   ("get_user_answer_rule", handleGetUserAnswerRule);
   ("get_user_greetings", handleGetUserGreetings);
   ("get_user_voicemails", handleGetUserVoicemails);
   ("get_music_on_hold", handleGetMusicOnHold);
   ("get_billing", handleGetBilling);
   ("get_agent_statistics", handleGetAgentStatistics);
   ("test_connection", handleTestConnection)].

(** The first property of each handler's [const { ... } = args] pattern;
    [handleGetDomains] and [handleTestConnection] never read [args]. *)
Definition destructured : list (string * string) :=
  [("search_users", "query"); ("get_user", "userId"); ("get_cdr_records", "startDate");
   ("get_domain", "domain"); ("get_user_devices", "userId"); ("get_phone_numbers", "domain");
   ("get_phone_number", "domain"); ("get_call_queues", "domain");
   ("get_call_queue", "domain"); ("get_call_queue_agents", "domain");
   ("get_agents", "domain"); ("login_agent", "domain"); ("logout_agent", "domain");
   ("get_auto_attendants", "domain"); ("get_user_answer_rules", "userId");
   ("get_user_answer_rule", "userId"); ("get_user_greetings", "userId");
   ("get_user_voicemails", "userId"); ("get_music_on_hold", "domain");
   ("get_billing", "domain"); ("get_agent_statistics", "domain")].

(** [String(error)] for the [TypeError] that destructuring [undefined]
    raises (the text V8 gives for the pattern's first property). *)
Definition destructure_error_text (p : string) : string :=
  "TypeError: Cannot destructure property '" ++ p ++ "' of 'args' as it is undefined.".

(** The [CallToolRequestSchema] handler: [const { name, arguments: args } =
    request.params], where [arguments] is optional in the request schema
    ([None] when the client omits it), then the [switch (name)] inside
    [try]. The [catch] rethrows an [McpError] unchanged and wraps anything
    else as [InternalError] with [`Error executing tool ${name}: ${error}`].
    The only non-[McpError] a handler can raise before its awaited gateway
    call (which never throws) is the [TypeError] of destructuring an absent
    [args]; a handler that does not read [args] runs as with an empty one. *)
Definition callTool (name : string) (args : option arguments) : prog reply :=
  match assoc name tool_handlers with
  | Some h =>
      match args with
      | Some a => h a
      | None =>
          match assoc name destructured with
          | Some p => Throw (mkMcpError InternalError
                              ("Error executing tool " ++ name ++ ": " ++ destructure_error_text p))
          | None => h []
          end
      end
  | None => Throw (mkMcpError MethodNotFound ("Unknown tool: " ++ name))
  end.

(** ** The tool catalog: the [ListToolsRequestSchema] handler *)

Record property : Type := mkProperty {
  pname : string; ptype : string; pdescription : string; pdefault : option jsvalue
}.

Record tool : Type := mkTool {
  name : string;
  description : string;
  properties : list property;          (* [inputSchema.properties], type 'object' *)
  required : list string               (* [inputSchema.required], [] when absent *)
}.

Definition str_prop (n d : string) : property := mkProperty n "string" d None.

Definition tools_catalog : list tool :=
  [ mkTool "search_users" "Search for users in the NetSapiens system"
      [str_prop "query" "Search query (username or partial username)";
       str_prop "domain" "Optional specific domain to search in";
       mkProperty "limit" "number" "Maximum number of results to return (default: 20)" (Some (JNum 20))]
      ["query"];
    mkTool "get_user" "Get detailed information about a specific user"
      [str_prop "userId" "User ID (username part)"; str_prop "domain" "Domain name"]
      ["userId"; "domain"];
    mkTool "get_cdr_records" "Retrieve call detail records (CDR)"
      [str_prop "startDate" "Start date for CDR search (YYYY-MM-DD format)";
       str_prop "endDate" "End date for CDR search (YYYY-MM-DD format)";
       str_prop "user" "Specific user to get CDR records for";
       str_prop "domain" "Domain to search in (required if user is specified)";
       mkProperty "limit" "number" "Maximum number of records to return (default: 100)" (Some (JNum 100))]
      [];
    mkTool "get_domains" "Get list of domains in the NetSapiens system" [] [];
    mkTool "get_domain" "Get detailed information about a specific domain"
      [str_prop "domain" "Domain name to retrieve information for"]
      ["domain"];
    mkTool "get_user_devices" "Get devices assigned to a specific user"
      [str_prop "userId" "User ID"; str_prop "domain" "Domain name"]
      ["userId"; "domain"];
    mkTool "get_phone_numbers" "Get phone numbers for a domain"
      [str_prop "domain" "Domain name";
       mkProperty "limit" "number" "Maximum number of results (optional)" None]
      ["domain"];
    mkTool "get_phone_number" "Get details of a specific phone number"
      [str_prop "domain" "Domain name"; str_prop "phoneNumber" "Phone number to lookup"]
      ["domain"; "phoneNumber"];
    mkTool "get_call_queues" "Get call queues for a domain"
      [str_prop "domain" "Domain name"]
      ["domain"];
    mkTool "get_call_queue" "Get details of a specific call queue"
      [str_prop "domain" "Domain name"; str_prop "queueId" "Call queue ID"]
      ["domain"; "queueId"];
    mkTool "get_call_queue_agents" "Get agents assigned to a call queue"
      [str_prop "domain" "Domain name"; str_prop "queueId" "Call queue ID"]
      ["domain"; "queueId"];
    mkTool "get_agents" "Get agents for a domain"
      [str_prop "domain" "Domain name"]
      ["domain"];
    mkTool "login_agent" "Login an agent to a call queue"
      [str_prop "domain" "Domain name"; str_prop "queueId" "Call queue ID"; str_prop "agentId" "Agent ID"]
      ["domain"; "queueId"; "agentId"];
    mkTool "logout_agent" "Logout an agent from a call queue"
      [str_prop "domain" "Domain name"; str_prop "queueId" "Call queue ID"; str_prop "agentId" "Agent ID"]
      ["domain"; "queueId"; "agentId"];
    mkTool "get_auto_attendants" "Get auto attendants for a domain"
      [str_prop "domain" "Domain name"]
      ["domain"];
    mkTool "get_user_answer_rules" "Get answer rules for a user"
      [str_prop "userId" "User ID"; str_prop "domain" "Domain name"]
      ["userId"; "domain"];
    mkTool "get_user_answer_rule" "Get specific answer rule for a user"
      [str_prop "userId" "User ID"; str_prop "domain" "Domain name";
       str_prop "timeframe" "Timeframe for the answer rule"]
      ["userId"; "domain"; "timeframe"];
    mkTool "get_user_greetings" "Get greetings for a user"
      [str_prop "userId" "User ID"; str_prop "domain" "Domain name"]
      ["userId"; "domain"];
    mkTool "get_user_voicemails" "Get voicemails for a user"
      [str_prop "userId" "User ID"; str_prop "domain" "Domain name"]
      ["userId"; "domain"];
    mkTool "get_music_on_hold" "Get music on hold files for a domain"
      [str_prop "domain" "Domain name"]
      ["domain"];
    mkTool "get_billing" "Get billing information for a domain"
      [str_prop "domain" "Domain name"]
      ["domain"];
    mkTool "get_agent_statistics" "Get agent statistics for a domain"
      [str_prop "domain" "Domain name"; str_prop "agentId" "Optional specific agent ID"]
      ["domain"];
    mkTool "test_connection" "Test connectivity to NetSapiens API" [] [] ].

(** The handler is [async () => ({ tools: [...] })]: a fresh literal on each call. *)
Definition listTools (_ : unit) : list tool := tools_catalog.

(** §4.2's operation table of the spec: each operation and its required inputs. *)
Definition spec_operation_table : list (string * list string) :=
  [("search_users", ["query"]);
   ("get_user", ["userId"; "domain"]);
   ("get_cdr_records", []);
   ("get_domains", []);
   ("get_domain", ["domain"]);
   ("get_user_devices", ["userId"; "domain"]);
   ("get_phone_numbers", ["domain"]);
   ("get_phone_number", ["domain"; "phoneNumber"]);
   ("get_call_queues", ["domain"]);
   ("get_call_queue", ["domain"; "queueId"]);
   ("get_call_queue_agents", ["domain"; "queueId"]);
   ("get_agents", ["domain"]);
   ("login_agent", ["domain"; "queueId"; "agentId"]);
   ("logout_agent", ["domain"; "queueId"; "agentId"]);
   ("get_auto_attendants", ["domain"]);
   ("get_user_answer_rules", ["userId"; "domain"]);
   ("get_user_answer_rule", ["userId"; "domain"; "timeframe"]);
   ("get_user_greetings", ["userId"; "domain"]);
   ("get_user_voicemails", ["userId"; "domain"]);
   ("get_music_on_hold", ["domain"]);
   ("get_billing", ["domain"]);
   ("get_agent_statistics", ["domain"]);
   ("test_connection", [])].

Example cat_len : List.length (listTools tt) = 23.
Proof. reflexivity. Qed.

Example e2e_get_user :
  run (fun _ => Response (JObj [("user", JStr "alice")]))
      (callTool "get_user" (Some [("userId", JStr "alice"); ("domain", JStr "example.com")]))
  = ([get_req "/domains/example.com/users/alice" []],
     inr [mkBlock "text" (Some (JsObj [("success", JsBool true);
                                       ("message", JsStr "Retrieved user details for alice");
                                       ("data", JsObj [("user", JsStr "alice")])]))]).
Proof. reflexivity. Qed.

Example search_count :
  run (fun _ => Response (JArr [JNull; JNull; JNull])) (callTool "search_users" (Some [("query", JStr "john")]))
  = ([get_req "/domains/~/users/~" [("user", JStr "john"); ("limit", JNum 20)]],
     inr [mkBlock "text" (Some (JsObj [("success", JsBool true);
                                       ("message", JsStr ("Found 3 users matching " ++ dq ++ "john" ++ dq));
                                       ("data", JsArr [JsNull; JsNull; JsNull])]))]).
Proof. reflexivity. Qed.

(** ** Startup: [getConfig] and the [NetSapiensClient] constructor *)

(** [process.env]: variable names to string values. *)
Definition env : Type := list (string * string).

Definition env_get (e : env) (k : string) : jsvalue :=
  match assoc k e with Some v => JStr v | None => JUndef end.

Record NetSapiensConfig : Type := mkNetSapiensConfig {
  apiUrl : string;
  apiToken : string;
  timeout : jsvalue;                   (* [timeout?: number] *)
  rateLimit : option (Z * Z)           (* [{ requests, perMilliseconds }] *)
}.

Record MCPServerConfig : Type := mkMCPServerConfig {
  server_name : string;
  server_version : string;
  netsapiens : NetSapiensConfig;
  debug : bool
}.

(** [getConfig()]: [inl] is the [Error] it throws. *)
Definition getConfig (e : env) : string + MCPServerConfig :=
  let apiToken := env_get e "NETSAPIENS_API_TOKEN" in
  if negb (truthy apiToken) then inl "NETSAPIENS_API_TOKEN environment variable is required" else
  inr {| server_name := "oitvoip-mcp-server";
         server_version := "1.0.0";
         netsapiens :=
           {| apiUrl := tostr (js_or (env_get e "NETSAPIENS_API_URL")
                                     (JStr "https://api.ucaasnetwork.com"));
              apiToken := tostr apiToken;
              timeout := JNum 30000;
              rateLimit := Some (100%Z, 60000%Z) |};
         debug := match env_get e "DEBUG" with JStr v => String.eqb v "true" | _ => false end |}.

(** The options given to [axios.create] by the constructor. *)
Record AxiosConfig : Type := mkAxiosConfig {
  baseURL : string;
  axios_timeout : jsvalue;
  headers : list (string * string)
}.

Definition client_config (config : NetSapiensConfig) : AxiosConfig :=
  {| baseURL := apiUrl config ++ "/ns-api/v2";
     axios_timeout := js_or (timeout config) (JNum 30000);
     headers := [("Authorization", "Bearer " ++ apiToken config);
                 ("Content-Type", "application/json");
                 ("Accept", "application/json");
                 ("User-Agent", "OITVOIP-MCP-Server/1.0.0")] |}.

(** The array a list method returns for a 2xx body:
    [Array.isArray(b) ? b : [b]]. *)
Definition list_data (b : jsvalue) : list jsvalue :=
  match b with JArr l => l | _ => [b] end.

(** ** Validation texts *)

Definition lower_ascii (c : ascii) : ascii :=
  let n := nat_of_ascii c in
  if Nat.leb 65 n && Nat.leb n 90 then ascii_of_nat (Nat.add n 32) else c.

Fixpoint lower (s : string) : string :=
  match s with EmptyString => EmptyString | String c r => String (lower_ascii c) (lower r) end.

Fixpoint contains (needle hay : string) : bool :=
  String.prefix needle hay ||
  match hay with EmptyString => false | String _ r => contains needle r end.

(** An error text names a field, ignoring case. *)
Definition mentions (msg field : string) : bool := contains (lower field) (lower msg).

(** A field of the JSON body of a one-block reply. *)
Definition body_field (rep : reply) (k : string) : option json :=
  match rep with
  | [b] => match btext b with Some (JsObj kvs) => assoc k kvs | _ => None end
  | _ => None
  end.

(** Tools whose gateway method returns a single entity ([X] or [any]) and an
    array ([X[]]), read off the methods' declared result types. *)
Definition single_entity_tools : list string :=
  ["get_user"; "get_domain"; "get_phone_number"; "get_call_queue"; "login_agent";
   "logout_agent"; "get_user_answer_rule"; "get_billing"; "get_agent_statistics"].

Definition list_tools : list string :=
  ["search_users"; "get_cdr_records"; "get_domains"; "get_user_devices"; "get_phone_numbers";
   "get_call_queues"; "get_call_queue_agents"; "get_agents"; "get_auto_attendants";
   "get_user_answer_rules"; "get_user_greetings"; "get_user_voicemails"; "get_music_on_hold"].

Example dec_120 : tostr (JNum 120) = "120".
Proof. reflexivity. Qed.

(** ** Gateway lemmas *)

Lemma run_try_get t r ok err :
  run t (try_get r ok err)
  = ([r], inr (match t r with Response b => ok b | Failure m => err m end)).
Proof. unfold try_get; simpl; destruct (t r); reflexivity. Qed.

Lemma run_bind {A B} t (p : prog A) (f : A -> prog B) :
  run t (bind p f)
  = let (rs, res) := run t p in
    match res with
    | inl e => (rs, inl e)
    | inr a => let (rs', res') := run t (f a) in (app rs rs', res')
    end.
Proof.
  induction p as [a | e | r k IH]; simpl.
  - destruct (run t (f a)); reflexivity.
  - reflexivity.
  - rewrite IH. destruct (run t (k (t r))) as [rs [e | a]]; [reflexivity |].
    destruct (run t (f a)); reflexivity.
Qed.

(** Every gateway method is one [try_get]: one request, nothing thrown. *)
Lemma gateway_shape c :
  exists r ok err, gateway c = try_get r ok err.
Proof. destruct c; simpl; do 3 eexists; reflexivity. Qed.

(** C1: on any transport failure every gateway method returns normally with
    [success = false], [error] the failure's message or, when that message is
    empty or missing, the method's fixed fallback text, and [data] the empty
    value of its payload type ([[]] for arrays, [undefined] for single
    entities, [false] for the boolean probe); nothing is ever thrown. *)
Theorem gateway_failure_result (c : gw_call) :
  (forall t, exists r, snd (run t (gateway c)) = inr r) /\
  exists fallback : string, forall m : jsvalue,
    snd (run (fun _ => Failure m) (gateway c))
    = inr {| success := false; data := empty_of (gw_returns c);
             error := js_or m (JStr fallback); message := JUndef |}.
Proof.
  split.
  - intro t. destruct (gateway_shape c) as (r & ok & err & ->).
    rewrite run_try_get. eexists; reflexivity.
  - destruct c; eexists; intro m; reflexivity.
Qed.

Example fallback_user_devices :
  snd (run (fun _ => Failure (JStr "")) (gateway (CGetUserDevices (JStr "alice") (JStr "d"))))
  = inr {| success := false; data := JArr []; error := JStr "Failed to get user devices";
           message := JUndef |}.
Proof. reflexivity. Qed.

(** C5: for every array-returning gateway method a 2xx body that is a bare
    object is wrapped into a one-element array, and an array body is kept. *)
Theorem list_ops_wrap_bare_object (c : gw_call) (Hlist : gw_returns c = RList) :
  (forall kvs, snd (run (fun _ => Response (JObj kvs)) (gateway c))
               = inr {| success := true; data := JArr [JObj kvs]; error := JUndef; message := JUndef |}) /\
  (forall l, snd (run (fun _ => Response (JArr l)) (gateway c))
             = inr {| success := true; data := JArr l; error := JUndef; message := JUndef |}).
Proof. destruct c; try discriminate Hlist; split; intros; reflexivity. Qed.

Lemma list_ops_wrap_bare_object_witness :
  gw_returns (CGetUserDevices (JStr "alice") (JStr "example.com")) = RList /\
  snd (run (fun _ => Response (JObj [("mac", JStr "00:11")]))
           (gateway (CGetUserDevices (JStr "alice") (JStr "example.com"))))
  = inr {| success := true; data := JArr [JObj [("mac", JStr "00:11")]]; error := JUndef;
           message := JUndef |}.
Proof.
  split; [reflexivity |].
  exact (proj1 (list_ops_wrap_bare_object (CGetUserDevices (JStr "alice") (JStr "example.com"))
                  eq_refl) [("mac", JStr "00:11")]).
Defined.

(** C8: [test_connection] issues exactly one request, GET /domains with
    [limit = 1]; any 2xx body (an empty domain list included) gives
    [success = true] with [data = true], any failure [success = false] with
    [data = false]. *)
Theorem test_connection_reachability :
  (forall t (args : option arguments), fst (run t (callTool "test_connection" args))
                  = [get_req "/domains" [("limit", JNum 1)]]) /\
  (forall t, fst (run t testConnection) = [get_req "/domains" [("limit", JNum 1)]]) /\
  (forall b, exists r, snd (run (fun _ => Response b) testConnection) = inr r /\
                       success r = true /\ data r = JBool true) /\
  (forall m, exists r, snd (run (fun _ => Failure m) testConnection) = inr r /\
                       success r = false /\ data r = JBool false).
Proof.
  split; [| split; [| split]].
  - intros t args. destruct args; simpl; destruct (t _); reflexivity.
  - intro t. simpl. destruct (t _); reflexivity.
  - intro b. eexists; repeat split.
  - intro m. eexists; repeat split.
Qed.

(** ** Validation *)

Example mentions_query : mentions "Query parameter is required" "query" = true.
Proof. reflexivity. Qed.

Ltac unfold_handlers :=
  unfold handleSearchUsers, handleGetUser, handleGetCDRRecords, handleGetDomains,
    handleGetDomain, handleGetUserDevices, handleGetPhoneNumbers, handleGetPhoneNumber,
    handleGetCallQueues, handleGetCallQueue, handleGetCallQueueAgents, handleGetAgents,
    handleLoginAgent, handleLogoutAgent, handleGetAutoAttendants, handleGetUserAnswerRules,
    handleGetUserAnswerRule, handleGetUserGreetings, handleGetUserVoicemails,
    handleGetMusicOnHold, handleGetBilling, handleGetAgentStatistics, handleTestConnection.

Ltac split_truthy :=
  repeat match goal with
         | |- context [truthy (get ?a ?k)] =>
             let E := fresh "E" in destruct (truthy (get a k)) eqn:E
         end.




(** ** Dispatch *)

Lemma handler_names : map fst tool_handlers = map name (listTools tt).
Proof. reflexivity. Qed.

Lemma assoc_notin {A} (n : string) (l : list (string * A)) :
  ~ In n (map fst l) -> assoc n l = None.
Proof.
  induction l as [| [k v] l IH]; simpl; intro H; [reflexivity |].
  destruct (String.eqb_spec n k) as [-> | _]; [exfalso; tauto |].
  apply IH; tauto.
Qed.

Ltac catalog_case Hd :=
  simpl in Hd; repeat destruct Hd as [<- | Hd]; try contradiction.

(** C3: an unknown tool name throws a method-not-found error, whose code
    differs from the invalid-params code; for a catalogued tool whose required
    fields are all present, [callTool] never throws, whatever the transport
    does, and a transport failure shows as [success: false] in the reply. *)
Theorem unknown_tool_and_contained_failures :
  (forall n args, ~ In n (map name (listTools tt)) ->
     callTool n (Some args) = Throw (mkMcpError MethodNotFound ("Unknown tool: " ++ n))) /\
  error_code_value MethodNotFound <> error_code_value InvalidParams /\
  (forall d args, In d (listTools tt) ->
     (forall f, In f (required d) -> truthy (get args f) = true) ->
     (forall t, exists rep, snd (run t (callTool (name d) (Some args))) = inr rep) /\
     (forall m, exists rep, snd (run (fun _ => Failure m) (callTool (name d) (Some args))) = inr rep /\
                            body_field rep "success" = Some (JsBool false))).
Proof.
  split; [| split].
  - intros n args Hn. unfold callTool.
    rewrite assoc_notin; [reflexivity |]. rewrite handler_names. exact Hn.
  - discriminate.
  - intros d args Hd Hv.
    catalog_case Hd; cbn -[get truthy]; unfold_handlers; split_truthy;
      try (exfalso; match goal with
                    | E : truthy (get _ ?k) = false |- _ =>
                        rewrite (Hv k) in E; [discriminate | simpl; tauto]
                    end);
      (split; [intro t; simpl; destruct (t _); eexists; reflexivity
              | intro m; eexists; split; reflexivity]).
Qed.

Lemma unknown_tool_and_contained_failures_witness :
  callTool "delete_everything" (Some []) = Throw (mkMcpError MethodNotFound "Unknown tool: delete_everything") /\
  exists rep,
    snd (run (fun _ => Failure (JStr "Request failed with status code 404"))
             (callTool "get_user" (Some [("userId", JStr "alice"); ("domain", JStr "example.com")])))
    = inr rep /\ body_field rep "success" = Some (JsBool false).
Proof.
  split.
  - apply (proj1 unknown_tool_and_contained_failures). simpl. intuition discriminate.
  - apply (proj2 (proj2 (proj2 unknown_tool_and_contained_failures) (nth 1 (listTools tt) (mkTool "" "" [] []))
      [("userId", JStr "alice"); ("domain", JStr "example.com")]
      ltac:(apply nth_In; simpl; repeat constructor)
      ltac:(intros f Hf; simpl in Hf; repeat destruct Hf as [<- | Hf]; try reflexivity; contradiction))).
Defined.

Ltac refute_invalid Hv :=
  exfalso; match goal with
           | E : truthy (get _ ?k) = false |- _ =>
               rewrite (Hv k) in E; [discriminate | simpl; tauto]
           end.



(** C4: every tool's reply should serialize [{success, message, data, error}],
    as the other 22 handlers do, but the reply of test_connection has no
    [data] key even though its gateway result carries [data = false]. *)
Lemma test_connection_reply_lacks_data :
  exists rep,
    snd (run (fun _ => Failure (JStr "connect ECONNREFUSED")) (callTool "test_connection" (Some [])))
    = inr rep /\
    rep = [{| btype := "text";
              btext := Some (JsObj [("success", JsBool false); ("message", JsStr "Connection failed");
                                    ("error", JsStr "connect ECONNREFUSED")]) |}] /\
    body_field rep "data" = None /\
    snd (run (fun _ => Failure (JStr "connect ECONNREFUSED")) testConnection)
    = inr {| success := false; data := JBool false; error := JStr "connect ECONNREFUSED";
             message := JUndef |}.
Proof. eexists; split; [reflexivity | split; [reflexivity | split; reflexivity]]. Qed.

(** ** Catalog *)

(** C6: [listTools] returns the same sequence on every call; it holds one
    descriptor per operation of the spec's table, in the table's order,
    without duplicates, each with the table's required fields. *)
Theorem catalog_matches_operation_table :
  (forall u v : unit, listTools u = listTools v) /\
  List.length (listTools tt) = 23 /\
  NoDup (map name (listTools tt)) /\
  map (fun d => (name d, required d)) (listTools tt) = spec_operation_table.
Proof.
  split; [intros [] []; reflexivity | split; [reflexivity | split; [| reflexivity]]].
  simpl. repeat constructor; simpl; intuition discriminate.
Qed.

(** ** Call detail records *)

Lemma js_or_default v d : js_or (js_default v d) d = js_or v d.
Proof. destruct v; try reflexivity. unfold js_or. simpl. destruct (truthy d); reflexivity. Qed.

(** C7: get_cdr_records issues one GET whose path is the user's CDR endpoint
    when user and domain are both given, the domain's when only the domain is,
    and /cdrs otherwise; its query parameters are always start_time, end_time
    and limit, the limit being 100 when absent. *)
Theorem cdr_endpoint_by_scope :
  forall (args : arguments) t,
  exists r,
    fst (run t (callTool "get_cdr_records" (Some args))) = [r] /\
    req_method r = GET /\
    (truthy (get args "user") = true -> truthy (get args "domain") = true ->
       req_path r = "/domains/" ++ tostr (get args "domain") ++ "/users/"
                    ++ tostr (get args "user") ++ "/cdrs") /\
    (truthy (get args "user") = false -> truthy (get args "domain") = true ->
       req_path r = "/domains/" ++ tostr (get args "domain") ++ "/cdrs") /\
    (truthy (get args "domain") = false -> req_path r = "/cdrs") /\
    req_params r = [("start_time", get args "startDate"); ("end_time", get args "endDate");
                    ("limit", js_or (get args "limit") (JNum 100))] /\
    (get args "limit" = JUndef ->
       req_params r = [("start_time", get args "startDate"); ("end_time", get args "endDate");
                       ("limit", JNum 100)]).
Proof.
  intros args t. cbn -[get truthy]. unfold handleGetCDRRecords. cbn -[get truthy].
  destruct (t _); (eexists; split; [reflexivity |]); cbn -[get truthy js_or js_default];
    rewrite js_or_default;
    (split; [reflexivity |]);
    (split; [intros Hu Hd; rewrite Hu, Hd; reflexivity |]);
    (split; [intros Hu Hd; rewrite Hu, Hd; reflexivity |]);
    (split; [intros Hd; rewrite Hd, andb_false_r; reflexivity |]);
    (split; [reflexivity | intros Hl; rewrite Hl; reflexivity]).
Qed.

(** C9: with a user but no domain, get_cdr_records calls /cdrs with only the
    date bounds and the limit, returns a reply, and its whole run is the same
    for every user value: the user filter is dropped. *)
Theorem cdr_user_without_domain_ignored (args : arguments) (t : request -> outcome)
    (Hd : get args "domain" = JUndef) (Hu : truthy (get args "user") = true) :
  fst (run t (callTool "get_cdr_records" (Some args)))
  = [get_req "/cdrs" [("start_time", get args "startDate"); ("end_time", get args "endDate");
                      ("limit", js_or (get args "limit") (JNum 100))]] /\
  (exists rep, snd (run t (callTool "get_cdr_records" (Some args))) = inr rep) /\
  (forall args' : arguments,
     get args' "domain" = JUndef -> get args' "startDate" = get args "startDate" ->
     get args' "endDate" = get args "endDate" -> get args' "limit" = get args "limit" ->
     run t (callTool "get_cdr_records" (Some args')) = run t (callTool "get_cdr_records" (Some args))).
Proof.
  cbn -[get truthy]. unfold handleGetCDRRecords. cbn -[get truthy js_or js_default].
  split; [| split].
  - rewrite Hd, js_or_default. simpl. rewrite andb_false_r. destruct (t _); reflexivity.
  - destruct (t _); eexists; reflexivity.
  - intros args' Hd' Hs He Hl. rewrite Hd', Hs, He, Hl, Hd. simpl.
    rewrite !andb_false_r. reflexivity.
Qed.

Lemma cdr_user_without_domain_ignored_witness :
  fst (run (fun _ => Response (JArr [])) (callTool "get_cdr_records" (Some [("user", JStr "alice")])))
  = [get_req "/cdrs" [("start_time", JUndef); ("end_time", JUndef); ("limit", JNum 100)]].
Proof.
  exact (proj1 (cdr_user_without_domain_ignored [("user", JStr "alice")]
                  (fun _ => Response (JArr [])) eq_refl eq_refl)).
Defined.

(** ** Serialized replies *)

Ltac split_json :=
  repeat (match goal with
          | |- context [JSON_stringify ?x] =>
              lazymatch x with
              | JUndef => fail
              | JStr _ => fail
              | JBool _ => fail
              | JArr [] => fail
              | _ => destruct (JSON_stringify x)
              end
          | |- context [truthy ?x] => destruct (truthy x)
          | |- context [isArray ?x] => destruct (isArray x)
          end; simpl).

(** C10: the serialized reply body drops keys whose value is [undefined]: on
    a 2xx response no tool's body has an [error] key; on a failure the body of
    a single-entity tool has no [data] key, while that of an array tool has
    [data: []]. *)
Theorem reply_omits_undefined_keys :
  (forall d args b, In d (listTools tt) ->
     (forall f, In f (required d) -> truthy (get args f) = true) ->
     exists rep, snd (run (fun _ => Response b) (callTool (name d) (Some args))) = inr rep /\
                 body_field rep "error" = None) /\
  (forall d args m, In d (listTools tt) -> In (name d) single_entity_tools ->
     (forall f, In f (required d) -> truthy (get args f) = true) ->
     exists rep, snd (run (fun _ => Failure m) (callTool (name d) (Some args))) = inr rep /\
                 body_field rep "data" = None) /\
  (forall d args m, In d (listTools tt) -> In (name d) list_tools ->
     (forall f, In f (required d) -> truthy (get args f) = true) ->
     exists rep, snd (run (fun _ => Failure m) (callTool (name d) (Some args))) = inr rep /\
                 body_field rep "data" = Some (JsArr [])).
Proof.
  split; [| split].
  - intros d args b Hd Hv.
    catalog_case Hd; cbn -[get truthy]; unfold_handlers; split_truthy;
      try refute_invalid Hv;
      (eexists; split; [reflexivity |]); simpl; split_json; reflexivity.
  - intros d args m Hd Hk Hv.
    catalog_case Hd; simpl in Hk; try (exfalso; intuition discriminate);
      cbn -[get truthy]; unfold_handlers; split_truthy;
      try refute_invalid Hv;
      (eexists; split; [reflexivity |]); simpl; split_json; reflexivity.
  - intros d args m Hd Hk Hv.
    catalog_case Hd; simpl in Hk; try (exfalso; intuition discriminate);
      cbn -[get truthy]; unfold_handlers; split_truthy;
      try refute_invalid Hv;
      (eexists; split; [reflexivity |]); simpl; split_json; reflexivity.
Qed.

Lemma cdr_endpoint_by_scope_witness :
  fst (run (fun _ => Response (JArr []))
           (callTool "get_cdr_records" (Some [("user", JStr "alice"); ("domain", JStr "example.com")])))
  = [get_req "/domains/example.com/users/alice/cdrs"
       [("start_time", JUndef); ("end_time", JUndef); ("limit", JNum 100)]].
Proof.
  destruct (cdr_endpoint_by_scope [("user", JStr "alice"); ("domain", JStr "example.com")]
              (fun _ => Response (JArr [])))
    as [r [H1 [H2 [H3 [_ [_ [H6 _]]]]]]].
  transitivity [r]; [exact H1 |]. specialize (H3 eq_refl eq_refl).
  destruct r as [meth path params]; simpl in H2, H3, H6. rewrite H2, H3, H6. reflexivity.
Defined.

Lemma reply_omits_undefined_keys_witness :
  exists rep,
    snd (run (fun _ => Failure (JStr "Request failed with status code 404"))
             (callTool "get_user" (Some [("userId", JStr "alice"); ("domain", JStr "example.com")])))
    = inr rep /\ body_field rep "data" = None.
Proof.
  apply (proj1 (proj2 reply_omits_undefined_keys) (nth 1 (listTools tt) (mkTool "" "" [] []))
           [("userId", JStr "alice"); ("domain", JStr "example.com")]).
  - apply nth_In. simpl. repeat constructor.
  - simpl. tauto.
  - intros f Hf. simpl in Hf. repeat destruct Hf as [<- | Hf]; try reflexivity; contradiction.
Defined.

(** * Further properties of the code *)

(** ** Startup *)

(** X1: [getConfig] throws exactly when NETSAPIENS_API_TOKEN is unset or
    empty; any non-empty token is taken as the API token. *)
Theorem getConfig_requires_token :
  (forall e : env,
     assoc "NETSAPIENS_API_TOKEN" e = None \/ assoc "NETSAPIENS_API_TOKEN" e = Some "" ->
     getConfig e = inl "NETSAPIENS_API_TOKEN environment variable is required") /\
  (forall (e : env) (s : string),
     assoc "NETSAPIENS_API_TOKEN" e = Some s -> s <> "" ->
     exists cfg, getConfig e = inr cfg /\ apiToken (netsapiens cfg) = s).
Proof.
  split.
  - intros e [H | H]; unfold getConfig, env_get; rewrite H; reflexivity.
  - intros e s H Hs. unfold getConfig, env_get. rewrite H. simpl.
    apply String.eqb_neq in Hs. rewrite Hs. simpl.
    eexists; split; reflexivity.
Qed.

Lemma getConfig_requires_token_witness :
  getConfig [("NETSAPIENS_API_URL", "https://pbx.example.com")]
  = inl "NETSAPIENS_API_TOKEN environment variable is required" /\
  exists cfg, getConfig [("NETSAPIENS_API_TOKEN", "tok")] = inr cfg /\
              apiToken (netsapiens cfg) = "tok".
Proof.
  split.
  - apply (proj1 getConfig_requires_token). left. reflexivity.
  - apply (proj2 getConfig_requires_token); [reflexivity | discriminate].
Defined.

(** X2: a successful [getConfig] takes the API URL from NETSAPIENS_API_URL
    when it is set and non-empty and otherwise uses
    https://api.ucaasnetwork.com; the timeout is 30000 ms, the declared rate
    limit 100 requests per 60000 ms, and debug is on exactly when DEBUG is the
    string "true". *)
Theorem getConfig_fields (e : env) (cfg : MCPServerConfig) (H : getConfig e = inr cfg) :
  ((assoc "NETSAPIENS_API_URL" e = None \/ assoc "NETSAPIENS_API_URL" e = Some "") ->
     apiUrl (netsapiens cfg) = "https://api.ucaasnetwork.com") /\
  (forall u, assoc "NETSAPIENS_API_URL" e = Some u -> u <> "" -> apiUrl (netsapiens cfg) = u) /\
  timeout (netsapiens cfg) = JNum 30000 /\
  rateLimit (netsapiens cfg) = Some (100%Z, 60000%Z) /\
  (debug cfg = true <-> assoc "DEBUG" e = Some "true").
Proof.
  unfold getConfig in H.
  destruct (negb (truthy (env_get e "NETSAPIENS_API_TOKEN"))); [discriminate |].
  injection H as <-. simpl. unfold env_get.
  split; [| split; [| split; [| split]]].
  - intros [Hu | Hu]; rewrite Hu; reflexivity.
  - intros u Hu Hne. rewrite Hu. unfold js_or. simpl.
    apply String.eqb_neq in Hne. rewrite Hne. reflexivity.
  - reflexivity.
  - reflexivity.
  - destruct (assoc "DEBUG" e) as [v |]; [| split; discriminate].
    rewrite String.eqb_eq. split; [intros -> | intros Hv; injection Hv]; auto.
Qed.

Lemma getConfig_fields_witness :
  exists cfg, getConfig [("NETSAPIENS_API_TOKEN", "tok"); ("DEBUG", "true")] = inr cfg /\
    apiUrl (netsapiens cfg) = "https://api.ucaasnetwork.com" /\ debug cfg = true.
Proof.
  destruct (proj2 getConfig_requires_token [("NETSAPIENS_API_TOKEN", "tok"); ("DEBUG", "true")] "tok"
              eq_refl ltac:(discriminate)) as [cfg [H _]].
  exists cfg. split; [exact H |].
  destruct (getConfig_fields _ _ H) as [Hu [_ [_ [_ Hd]]]].
  split; [apply Hu; left; reflexivity | apply Hd; reflexivity].
Defined.

(** X3: the axios client is bound to [{apiUrl}/ns-api/v2] with a bearer
    token header and a falsy (absent or 0) timeout replaced by 30000 ms; built
    from the startup configuration with no NETSAPIENS_API_URL it targets
    https://api.ucaasnetwork.com/ns-api/v2 with a 30000 ms timeout. *)
Theorem client_config_from_startup :
  (forall config : NetSapiensConfig,
     baseURL (client_config config) = apiUrl config ++ "/ns-api/v2" /\
     assoc "Authorization" (headers (client_config config)) = Some ("Bearer " ++ apiToken config) /\
     (truthy (timeout config) = false -> axios_timeout (client_config config) = JNum 30000)) /\
  (forall (e : env) (cfg : MCPServerConfig),
     getConfig e = inr cfg -> assoc "NETSAPIENS_API_URL" e = None ->
     baseURL (client_config (netsapiens cfg)) = "https://api.ucaasnetwork.com/ns-api/v2" /\
     axios_timeout (client_config (netsapiens cfg)) = JNum 30000).
Proof.
  split.
  - intro config. split; [reflexivity | split; [reflexivity |]].
    intro Ht. unfold client_config, js_or. simpl. rewrite Ht. reflexivity.
  - intros e cfg H Hu.
    destruct (getConfig_fields e cfg H) as [Hurl [_ [Ht _]]].
    unfold client_config. simpl. rewrite (Hurl (or_introl Hu)), Ht. split; reflexivity.
Qed.

Lemma client_config_from_startup_witness :
  axios_timeout (client_config (mkNetSapiensConfig "https://pbx.example.com" "tok" (JNum 0) None))
  = JNum 30000 /\
  exists cfg, getConfig [("NETSAPIENS_API_TOKEN", "tok")] = inr cfg /\
    baseURL (client_config (netsapiens cfg)) = "https://api.ucaasnetwork.com/ns-api/v2".
Proof.
  split.
  - apply (proj1 client_config_from_startup). reflexivity.
  - destruct (proj2 getConfig_requires_token [("NETSAPIENS_API_TOKEN", "tok")] "tok" eq_refl
                ltac:(discriminate)) as [cfg [H _]].
    exists cfg. split; [exact H |].
    exact (proj1 (proj2 client_config_from_startup _ cfg H eq_refl)).
Defined.

(** ** Requests *)

(** X4: every gateway method issues exactly one request, and it is a POST
    (with no query parameters) only for agent login and logout; all other
    methods use GET. *)
Theorem post_only_for_agent_actions (c : gw_call) (t : request -> outcome) :
  exists r, fst (run t (gateway c)) = [r] /\
    (req_method r = POST <-> exists d q a, c = CLoginAgent d q a \/ c = CLogoutAgent d q a) /\
    (req_method r = POST -> req_params r = []).
Proof.
  destruct (gateway_shape c) as (r & ok & err & Hg).
  exists r. rewrite Hg, run_try_get. split; [reflexivity |].
  destruct c; simpl in Hg; unfold try_get in Hg; injection Hg as <- _;
    simpl; (split; [split | intro Hm]);
    first [ discriminate
          | reflexivity
          | intros (d' & q' & a' & [Hc | Hc]); discriminate
          | intros _; do 3 eexists; (left; reflexivity) || (right; reflexivity) ].
Qed.

(** X5: a catalogued tool called with an arguments object holding its
    required fields issues exactly one HTTP request, whatever the transport
    answers; called with no arguments object, get_domains and test_connection
    still issue exactly one, and every other tool issues none and fails with
    an internal error. *)
Theorem one_request_per_call :
  (forall d args t, In d (listTools tt) ->
     (forall f, In f (required d) -> truthy (get args f) = true) ->
     exists r, fst (run t (callTool (name d) (Some args))) = [r]) /\
  (forall d t, In d (listTools tt) ->
     (In (name d) ["get_domains"; "test_connection"] ->
        exists r, fst (run t (callTool (name d) None)) = [r]) /\
     (~ In (name d) ["get_domains"; "test_connection"] ->
        exists msg, run t (callTool (name d) None) = ([], inl (mkMcpError InternalError msg)))).
Proof.
  split.
  - intros d args t Hd Hv.
    catalog_case Hd; cbn -[get truthy]; unfold_handlers; split_truthy;
      try refute_invalid Hv; simpl; destruct (t _); eexists; reflexivity.
  - intros d t Hd.
    catalog_case Hd; split; intro Hn;
      try (exfalso; simpl in Hn; intuition discriminate);
      cbn; try destruct (t _); eexists; reflexivity.
Qed.

Lemma one_request_per_call_witness :
  exists r, fst (run (fun _ => Failure (JStr "timeout of 30000ms exceeded"))
                     (callTool "get_call_queue" (Some [("domain", JStr "example.com"); ("queueId", JStr "sales")])))
            = [r].
Proof.
  apply (proj1 one_request_per_call (nth 9 (listTools tt) (mkTool "" "" [] []))).
  - apply nth_In. simpl. repeat constructor.
  - intros f Hf. simpl in Hf. repeat destruct Hf as [<- | Hf]; try reflexivity; contradiction.
Defined.

(** X6: the names [callTool] dispatches are exactly the names [listTools]
    advertises. *)
Lemma assoc_in {A} (n : string) (l : list (string * A)) :
  In n (map fst l) -> exists v, assoc n l = Some v.
Proof.
  induction l as [| [k v] l IH]; simpl; [contradiction |]. intro H.
  destruct (String.eqb_spec n k) as [-> | Hne]; [eauto |].
  apply IH. destruct H as [H | H]; [congruence | exact H].
Qed.

Lemma assoc_some_in {A} (n : string) (l : list (string * A)) v :
  assoc n l = Some v -> In n (map fst l).
Proof.
  induction l as [| [k w] l IH]; simpl; [discriminate |].
  destruct (String.eqb_spec n k) as [-> | _]; [auto | intro H; right; auto].
Qed.

Theorem dispatch_matches_catalog (n : string) :
  (exists h, assoc n tool_handlers = Some h) <-> In n (map name (listTools tt)).
Proof.
  rewrite <- handler_names. split.
  - intros [h H]. exact (assoc_some_in n tool_handlers h H).
  - apply assoc_in.
Qed.

(** ** Limits, paths and reply messages *)

Lemma js_default_defined v d : v <> JUndef -> js_default v d = v.
Proof. destruct v; simpl; congruence. Qed.

Lemma js_or_str s d : s <> "" -> js_or (JStr s) d = JStr s.
Proof. intro H. unfold js_or. simpl. apply String.eqb_neq in H. rewrite H. reflexivity. Qed.

Lemma count_list_data b :
  tostr (js_or (js_length (if isArray b then b else JArr [b])) (JNum 0))
  = Z_to_dec (Z.of_nat (List.length (list_data b))).
Proof.
  destruct b; try reflexivity.
  unfold js_or. simpl. destruct (Z.of_nat (List.length l) =? 0)%Z eqn:E; [| reflexivity].
  apply Z.eqb_eq in E. rewrite E. reflexivity.
Qed.

(** X7: search_users forwards any [limit] that is present unchanged (0 and
    null included) and uses 20 only when it is absent; get_cdr_records turns
    every falsy [limit] (absent, 0, null, "") into 100; get_phone_numbers
    forwards [limit] with no default at all. *)
Theorem limit_forwarding :
  (forall (args : arguments) t,
     truthy (get args "query") = true -> get args "limit" <> JUndef ->
     map req_params (fst (run t (callTool "search_users" (Some args))))
     = [[("user", get args "query"); ("limit", get args "limit")]]) /\
  (forall (args : arguments) t,
     truthy (get args "limit") = false ->
     map req_params (fst (run t (callTool "get_cdr_records" (Some args))))
     = [[("start_time", get args "startDate"); ("end_time", get args "endDate");
         ("limit", JNum 100)]]) /\
  (forall (args : arguments) t,
     truthy (get args "domain") = true ->
     map req_params (fst (run t (callTool "get_phone_numbers" (Some args))))
     = [[("limit", get args "limit")]]).
Proof.
  split; [| split].
  - intros args t Hq Hl. cbn -[get truthy]. unfold handleSearchUsers, searchUsers.
    rewrite Hq. rewrite !(js_default_defined _ _ Hl). simpl. destruct (t _); reflexivity.
  - intros args t Hl. cbn -[get truthy]. unfold handleGetCDRRecords. cbn -[get truthy js_or js_default].
    rewrite js_or_default.
    assert (E : js_or (get args "limit") (JNum 100) = JNum 100) by (unfold js_or; rewrite Hl; reflexivity).
    rewrite E. destruct (t _); reflexivity.
  - intros args t Hd. cbn -[get truthy]. unfold handleGetPhoneNumbers. rewrite Hd. simpl.
    destruct (t _); reflexivity.
Qed.

Lemma limit_forwarding_witness :
  map req_params (fst (run (fun _ => Response (JArr []))
                           (callTool "search_users" (Some [("query", JStr "john"); ("limit", JNum 0)]))))
  = [[("user", JStr "john"); ("limit", JNum 0)]] /\
  map req_params (fst (run (fun _ => Response (JArr [])) (callTool "get_cdr_records" (Some [("limit", JNum 0)]))))
  = [[("start_time", JUndef); ("end_time", JUndef); ("limit", JNum 100)]].
Proof.
  split.
  - apply (proj1 limit_forwarding); [reflexivity | discriminate].
  - apply (proj1 (proj2 limit_forwarding)). reflexivity.
Defined.

(** X8: search_users searches one domain's users when a domain is given and
    the cross-domain endpoint otherwise; on a 2xx response its message reports
    the number of elements of the returned (possibly wrapped) list, quotes the
    query and names the domain only when one is given. *)
Theorem search_users_reply (args : arguments) (b : jsvalue)
    (Hq : truthy (get args "query") = true) :
  let q := get args "query" in
  let d := get args "domain" in
  exists r rep,
    run (fun _ => Response b) (callTool "search_users" (Some args)) = ([r], inr rep) /\
    (truthy d = true -> req_path r = "/domains/" ++ tostr d ++ "/users") /\
    (truthy d = false -> req_path r = "/domains/~/users/~") /\
    body_field rep "message"
    = Some (JsStr ("Found " ++ Z_to_dec (Z.of_nat (List.length (list_data b)))
                   ++ " users matching " ++ dq ++ tostr q ++ dq
                   ++ (if truthy d then " in domain " ++ tostr d else ""))).
Proof.
  cbn zeta. cbn -[get truthy]. unfold handleSearchUsers, searchUsers. rewrite Hq.
  cbn -[get truthy js_or js_length isArray tostr].
  do 2 eexists. split; [reflexivity |].
  split; [intro Hd; rewrite Hd; reflexivity |].
  split; [intro Hd; rewrite Hd; reflexivity |].
  simpl. rewrite <- count_list_data. reflexivity.
Qed.

Lemma search_users_reply_witness :
  exists r rep,
    run (fun _ => Response (JObj [("user", JStr "john")]))
        (callTool "search_users" (Some [("query", JStr "john"); ("domain", JStr "example.com")]))
    = ([r], inr rep) /\
    body_field rep "message"
    = Some (JsStr ("Found 1 users matching " ++ dq ++ "john" ++ dq ++ " in domain example.com")).
Proof.
  destruct (search_users_reply [("query", JStr "john"); ("domain", JStr "example.com")]
              (JObj [("user", JStr "john")]) eq_refl) as (r & rep & H1 & _ & _ & H4).
  exists r, rep. split; [exact H1 | exact H4].
Defined.

(** X9: for every catalogued tool except login_agent, logout_agent and
    test_connection, there is one fixed prefix, depending on the tool only,
    such that every failed call with the required fields present and a
    non-empty error message [s] yields a reply whose message is that prefix
    followed by [s], and whose error field is [s]. *)
Theorem failure_message_embeds_error :
  forall d, In d (listTools tt) ->
    ~ In (name d) ["login_agent"; "logout_agent"; "test_connection"] ->
    exists prefix, forall args s,
      (forall f, In f (required d) -> truthy (get args f) = true) ->
      s <> "" ->
      exists rep,
        snd (run (fun _ => Failure (JStr s)) (callTool (name d) (Some args))) = inr rep /\
        body_field rep "message" = Some (JsStr (prefix ++ s)) /\
        body_field rep "error" = Some (JsStr s).
Proof.
  intros d Hd Hn.
  catalog_case Hd; try (exfalso; apply Hn; simpl; tauto);
    cbn -[get truthy fails js_or]; unfold_handlers; cbn -[get truthy fails js_or];
    match goal with |- context [fails ?p] => exists p end;
    intros args s Hv Hs; split_truthy;
    try refute_invalid Hv;
    cbn -[get truthy fails js_or];
    eexists; (split; [reflexivity |]);
    unfold fails; simpl; rewrite (js_or_str s _ Hs); split; reflexivity.
Qed.

Lemma failure_message_embeds_error_witness :
  exists prefix rep1 rep2,
    snd (run (fun _ => Failure (JStr "Request failed with status code 404"))
             (callTool "get_domain" (Some [("domain", JStr "example.com")]))) = inr rep1 /\
    body_field rep1 "message" = Some (JsStr (prefix ++ "Request failed with status code 404")) /\
    body_field rep1 "error" = Some (JsStr "Request failed with status code 404") /\
    snd (run (fun _ => Failure (JStr "timeout of 30000ms exceeded"))
             (callTool "get_domain" (Some [("domain", JStr "other.org")]))) = inr rep2 /\
    body_field rep2 "message" = Some (JsStr (prefix ++ "timeout of 30000ms exceeded")).
Proof.
  assert (Hin : In (nth 4 (listTools tt) (mkTool "" "" [] [])) (listTools tt))
    by (apply nth_In; simpl; repeat constructor).
  assert (Hn : ~ In (name (nth 4 (listTools tt) (mkTool "" "" [] [])))
                 ["login_agent"; "logout_agent"; "test_connection"])
    by (simpl; intuition discriminate).
  destruct (failure_message_embeds_error _ Hin Hn) as [prefix H].
  destruct (H [("domain", JStr "example.com")] "Request failed with status code 404")
    as [rep1 [A1 [B1 C1]]];
    [intros f Hf; simpl in Hf; repeat destruct Hf as [<- | Hf]; try reflexivity; contradiction
    | discriminate |].
  destruct (H [("domain", JStr "other.org")] "timeout of 30000ms exceeded")
    as [rep2 [A2 [B2 _]]];
    [intros f Hf; simpl in Hf; repeat destruct Hf as [<- | Hf]; try reflexivity; contradiction
    | discriminate |].
  exists prefix, rep1, rep2. repeat split; assumption.
Defined.

(** X10: login_agent, logout_agent and test_connection report a fixed
    message per outcome, whatever the response body or the failure's cause:
    the cause appears only in the error field. *)
Theorem fixed_status_messages :
  (forall (args : arguments) b m,
     truthy (get args "domain") = true -> truthy (get args "queueId") = true ->
     truthy (get args "agentId") = true ->
     (exists rep, snd (run (fun _ => Response b) (callTool "login_agent" (Some args))) = inr rep /\
                  body_field rep "message" = Some (JsStr "Agent logged in successfully")) /\
     (exists rep, snd (run (fun _ => Failure m) (callTool "login_agent" (Some args))) = inr rep /\
                  body_field rep "message" = Some (JsStr "Failed to login agent")) /\
     (exists rep, snd (run (fun _ => Response b) (callTool "logout_agent" (Some args))) = inr rep /\
                  body_field rep "message" = Some (JsStr "Agent logged out successfully")) /\
     (exists rep, snd (run (fun _ => Failure m) (callTool "logout_agent" (Some args))) = inr rep /\
                  body_field rep "message" = Some (JsStr "Failed to logout agent"))) /\
  (forall (args : arguments) b m,
     (exists rep, snd (run (fun _ => Response b) (callTool "test_connection" (Some args))) = inr rep /\
                  body_field rep "message" = Some (JsStr "Connection successful")) /\
     (exists rep, snd (run (fun _ => Failure m) (callTool "test_connection" (Some args))) = inr rep /\
                  body_field rep "message" = Some (JsStr "Connection failed"))).
Proof.
  split.
  - intros args b m H1 H2 H3.
    cbn -[get truthy]. unfold handleLoginAgent, handleLogoutAgent. rewrite H1, H2, H3.
    repeat split; eexists; split; reflexivity.
  - intros args b m. split; eexists; split; reflexivity.
Qed.

Lemma fixed_status_messages_witness :
  exists rep,
    snd (run (fun _ => Failure (JStr "Request failed with status code 500"))
             (callTool "login_agent" (Some [("domain", JStr "example.com"); ("queueId", JStr "sales");
                                      ("agentId", JStr "101")]))) = inr rep /\
    body_field rep "message" = Some (JsStr "Failed to login agent").
Proof.
  exact (proj1 (proj2 (proj1 fixed_status_messages
           [("domain", JStr "example.com"); ("queueId", JStr "sales"); ("agentId", JStr "101")]
           JNull (JStr "Request failed with status code 500") eq_refl eq_refl eq_refl))).
Defined.

Lemma string_app_empty_r (s : string) : s ++ "" = s.
Proof. induction s as [| c s IH]; simpl; congruence. Qed.

(** X11: get_agent_statistics reads the per-agent statistics endpoint when an
    agent id is given and the domain-wide one otherwise, and its success
    message names the agent only in the first case. *)
Theorem agent_statistics_scope (args : arguments) (b : jsvalue)
    (Hd : truthy (get args "domain") = true) :
  let d := get args "domain" in
  let a := get args "agentId" in
  exists r rep,
    run (fun _ => Response b) (callTool "get_agent_statistics" (Some args)) = ([r], inr rep) /\
    (truthy a = true ->
       req_path r = "/domains/" ++ tostr d ++ "/statistics/agent/" ++ tostr a /\
       body_field rep "message"
       = Some (JsStr ("Retrieved agent statistics for domain " ++ tostr d
                      ++ " (agent: " ++ tostr a ++ ")"))) /\
    (truthy a = false ->
       req_path r = "/domains/" ++ tostr d ++ "/statistics/agent" /\
       body_field rep "message" = Some (JsStr ("Retrieved agent statistics for domain " ++ tostr d))).
Proof.
  cbn zeta. cbn -[get truthy]. unfold handleGetAgentStatistics, getAgentStatistics. rewrite Hd.
  cbn -[get truthy tostr].
  do 2 eexists. split; [reflexivity |].
  split; intro Ha; rewrite Ha; split; try reflexivity.
  cbn -[get truthy tostr]. rewrite string_app_empty_r. reflexivity.
Qed.

Lemma agent_statistics_scope_witness :
  exists r rep,
    run (fun _ => Response (JObj [])) (callTool "get_agent_statistics"
                                         (Some [("domain", JStr "example.com"); ("agentId", JStr "101")]))
    = ([r], inr rep) /\
    req_path r = "/domains/example.com/statistics/agent/101".
Proof.
  destruct (agent_statistics_scope [("domain", JStr "example.com"); ("agentId", JStr "101")]
              (JObj []) eq_refl) as (r & rep & H1 & H2 & _).
  exists r, rep. split; [exact H1 | exact (proj1 (H2 eq_refl))].
Defined.
